(** * action-setup-taskfile: the setup routine of [src/index.ts]

    A shallow embedding of the action's entry point and of the helpers it
    calls.  JavaScript strings are [string]s, holding their UTF-8
    encoding; a thrown value is a [thrown];
    every call into a collaborator library ([@actions/core],
    [@actions/tool-cache], [@actions/github], [@actions/exec], [os]) is
    answered by an [Env] and recorded, in program order, in the list of
    [Event]s that a computation emits. *)

From Stdlib Require Import String Ascii List Bool.
Import ListNotations.

Local Open Scope list_scope.
Local Open Scope string_scope.

(** ** JavaScript values used by the program *)

(** A value raised by [throw] or by a rejected promise.  [ErrorObj] is an
    instance of [Error] with its [name] and [message]; [NonError] is any
    other value, kept as the text [String(value)]. *)
Inductive thrown : Type :=
| ErrorObj (name message : string)
| NonError (text : string).

(** [new Error(msg)] *)
Definition newError (msg : string) : thrown := ErrorObj "Error" msg.

(** [`${error}`]: [Error.prototype.toString] on an error object, the text
    of the value otherwise. *)
Definition toString (e : thrown) : string :=
  match e with
  | ErrorObj name message =>
      if name =? "" then message
      else if message =? "" then name
      else name ++ ": " ++ message
  | NonError text => text
  end.

(** [s.toLowerCase()] on the letters [A]..[Z]; other code units are kept. *)
Definition lowerAscii (c : ascii) : ascii :=
  let n := nat_of_ascii c in
  if andb (Nat.leb 65 n) (Nat.leb n 90) then ascii_of_nat (n + 32) else c.

Fixpoint toLowerCase (s : string) : string :=
  match s with
  | EmptyString => EmptyString
  | String c rest => String (lowerAscii c) (toLowerCase rest)
  end.

(** [s.replace(/^v/, '')]: the pattern is anchored at the start of the
    input and has no flags, so at most the first code unit is removed. *)
Definition replaceLeadingV (s : string) : string :=
  match s with
  | String c rest => if Ascii.eqb c "v" then rest else s
  | EmptyString => s
  end.

(** The characters of a string: each byte that is not a UTF-8 continuation
    byte (128..191) starts a character and takes the continuation bytes
    that follow it. *)
Definition isContinuation (c : ascii) : bool :=
  let n := nat_of_ascii c in
  andb (Nat.leb 128 n) (Nat.leb n 191).

Fixpoint characters (s : string) : list string :=
  match s with
  | EmptyString => []
  | String c rest =>
      match characters rest with
      | String d tail :: others =>
          if isContinuation d
          then String c (String d tail) :: others
          else String c EmptyString :: String d tail :: others
      | others => String c EmptyString :: others
      end
  end.

(** The characters removed by [s.trim()], in UTF-8: the white space
    U+0009, U+000B, U+000C, U+0020, U+00A0, U+FEFF and the space separators
    U+1680, U+2000..U+200A, U+202F, U+205F, U+3000, and the line
    terminators U+000A, U+000D, U+2028, U+2029. *)
Definition utf8 (bytes : list nat) : string :=
  string_of_list_ascii (map ascii_of_nat bytes).

Definition whiteSpace : list string :=
  [utf8 [9]; utf8 [10]; utf8 [11]; utf8 [12]; utf8 [13]; utf8 [32];
   utf8 [194; 160];
   utf8 [225; 154; 128];
   utf8 [226; 128; 128]; utf8 [226; 128; 129]; utf8 [226; 128; 130];
   utf8 [226; 128; 131]; utf8 [226; 128; 132]; utf8 [226; 128; 133];
   utf8 [226; 128; 134]; utf8 [226; 128; 135]; utf8 [226; 128; 136];
   utf8 [226; 128; 137]; utf8 [226; 128; 138];
   utf8 [226; 128; 168]; utf8 [226; 128; 169];
   utf8 [226; 128; 175];
   utf8 [226; 129; 159];
   utf8 [227; 128; 128];
   utf8 [239; 187; 191]].

Definition isSpace (character : string) : bool :=
  existsb (String.eqb character) whiteSpace.

Fixpoint dropSpaces (l : list string) : list string :=
  match l with
  | character :: rest => if isSpace character then dropSpaces rest else l
  | [] => []
  end.

Definition trimStart (l : list string) : list string := dropSpaces l.

Definition trimEnd (l : list string) : list string :=
  rev (dropSpaces (rev l)).

(** [s.trim()] *)
Definition trim (s : string) : string :=
  String.concat "" (trimEnd (trimStart (characters s))).

(** Truthiness of a string in a condition: only [''] is falsy. *)
Definition truthy (s : string) : bool := negb (s =? "").

(** [b.toString()] *)
Definition boolToString (b : bool) : string := if b then "true" else "false".

(** ** Collaborators *)

(** One call into a collaborator library. *)
Inductive Event : Type :=
| GetInput (name : string)
| Info (msg : string)
| GetOctokit (token : string)
| GetLatestRelease (owner repo : string)
| Find (tool version : string)
| DownloadTool (url : string)
| ExtractZip (file : string)
| ExtractTar (file : string)
| CacheDir (dir tool version : string)
| AddPath (dir : string)
| Exec (cmd : string) (args : list string)
| SetOutput (name value : string)
| SetFailed (msg : string).

(** What the host and the libraries answer.  A call that can throw or
    reject answers [inl] with the thrown value; [core.getInput] without
    options, [core.info], [core.setOutput] and [core.setFailed] only read
    or record and always return.  [exec.exec] answers the chunks handed to
    the [stdout] listener, each as the text [data.toString()]. *)
Record Env : Type := {
  os_platform : string;
  os_arch : string;
  core_getInput : string -> string;
  github_getOctokit : string -> thrown + unit;
  repos_getLatestRelease : string -> string -> string -> thrown + string;
  tc_find : string -> string -> thrown + string;
  tc_downloadTool : string -> thrown + string;
  tc_extractZip : string -> thrown + string;
  tc_extractTar : string -> thrown + string;
  tc_cacheDir : string -> string -> string -> thrown + string;
  core_addPath : string -> thrown + unit;
  exec_exec : string -> list string -> thrown + list string
}.

(** ** Computations: the events emitted, then a thrown value or a result *)

Definition M (A : Type) : Type := list Event * (thrown + A).

Definition ret {A} (a : A) : M A := ([], inr a).

Definition throw {A} (e : thrown) : M A := ([], inl e).

Definition bind {A B} (m : M A) (f : A -> M B) : M B :=
  match m with
  | (tr, inl e) => (tr, inl e)
  | (tr, inr a) => let (tr', r) := f a in ((tr ++ tr')%list, r)
  end.

(** A call that is recorded and cannot fail. *)
Definition emit (ev : Event) : M unit := ([ev], inr tt).

(** A call that is recorded and answered by the environment. *)
Definition call {A} (ev : Event) (answer : thrown + A) : M A := ([ev], answer).

(** A pure step that may throw. *)
Definition lift {A} (r : thrown + A) : M A := ([], r).

(** [try { body } catch (error) { handler }] *)
Definition tryCatch {A} (body : M A) (handler : thrown -> M A) : M A :=
  match body with
  | (tr, inl e) => let (tr', r) := handler e in ((tr ++ tr')%list, r)
  | (tr, inr a) => (tr, inr a)
  end.

Declare Scope action_scope.
Delimit Scope action_scope with action.
Notation "x <- m ;; k" := (bind m (fun x => k))
  (at level 61, m at next level, right associativity) : action_scope.
Notation "m ;;; k" := (bind m (fun _ => k))
  (at level 61, right associativity) : action_scope.
Local Open Scope action_scope.

Definition events {A} (m : M A) : list Event := fst m.
Definition outcome {A} (m : M A) : thrown + A := snd m.

(** ** The program *)

Definition TOOL_NAME : string := "task".
Definition REPO_OWNER : string := "go-task".
Definition REPO_NAME : string := "task".

Record PlatformInfo : Type := {
  os : string;
  arch : string;
  ext : string
}.

(** The first [switch] of [getPlatformInfo]: Node.js platform to the
    Taskfile platform name and the archive extension. *)
Definition platformSwitch (platform : string) : thrown + (string * string) :=
  if platform =? "linux" then inr ("linux", "tar.gz")
  else if platform =? "darwin" then inr ("darwin", "tar.gz")
  else if platform =? "win32" then inr ("windows", "zip")
  else if platform =? "freebsd" then inr ("freebsd", "tar.gz")
  else inl (newError ("Unsupported platform: " ++ platform)).

(** The second [switch] of [getPlatformInfo]: Node.js arch to the Taskfile
    arch name. *)
Definition archSwitch (arch : string) : thrown + string :=
  if arch =? "x64" then inr "amd64"
  else if arch =? "arm64" then inr "arm64"
  else if arch =? "arm" then inr "arm"
  else if arch =? "ia32" then inr "386"
  else inl (newError ("Unsupported architecture: " ++ arch)).

Definition getPlatformInfo (env : Env) : thrown + PlatformInfo :=
  let platform := os_platform env in
  let arch := os_arch env in
  match platformSwitch platform with
  | inl e => inl e
  | inr (taskOs, ext) =>
      match archSwitch arch with
      | inl e => inl e
      | inr taskArch => inr {| os := taskOs; arch := taskArch; ext := ext |}
      end
  end.

Definition getLatestVersion (env : Env) (token : string) : M string :=
  _ <- call (GetOctokit token) (github_getOctokit env token) ;;
  tryCatch
    (tag_name <- call (GetLatestRelease REPO_OWNER REPO_NAME)
                   (repos_getLatestRelease env token REPO_OWNER REPO_NAME) ;;
     ret (replaceLeadingV tag_name))
    (fun error => throw (newError ("Failed to fetch latest version: " ++ toString error))).

Definition normalizeVersion (version : string) : string :=
  replaceLeadingV version.

Definition getDownloadUrl (version : string) (platformInfo : PlatformInfo) : string :=
  let taskOs := os platformInfo in
  let taskArch := arch platformInfo in
  let ext := ext platformInfo in
  "https://github.com/" ++ REPO_OWNER ++ "/" ++ REPO_NAME
    ++ "/releases/download/v" ++ version
    ++ "/task_" ++ taskOs ++ "_" ++ taskArch ++ "." ++ ext.

Definition downloadAndExtract (env : Env) (url version : string)
    (platformInfo : PlatformInfo) : M string :=
  emit (Info ("Downloading Taskfile from " ++ url)) ;;;
  downloadPath <- call (DownloadTool url) (tc_downloadTool env url) ;;
  extractedPath <-
    (if ext platformInfo =? "zip"
     then call (ExtractZip downloadPath) (tc_extractZip env downloadPath)
     else call (ExtractTar downloadPath) (tc_extractTar env downloadPath)) ;;
  cachedPath <- call (CacheDir extractedPath TOOL_NAME version)
                  (tc_cacheDir env extractedPath TOOL_NAME version) ;;
  ret cachedPath.

Definition verifyInstallation (env : Env) : M unit :=
  chunks <- call (Exec "task" ["--version"]) (exec_exec env "task" ["--version"]) ;;
  let output := fold_left (fun acc data => acc ++ data) chunks "" in
  emit (Info ("Taskfile installed: " ++ trim output)).

(** The statements of [run] under the comment "Resolve version". *)
Definition resolveVersion (env : Env) (versionInput token : string) : M string :=
  if toLowerCase versionInput =? "latest"
  then
    emit (Info "Fetching latest version...") ;;;
    version <- getLatestVersion env token ;;
    emit (Info ("Latest version: " ++ version)) ;;;
    ret version
  else ret (normalizeVersion versionInput).

(** The statements of [run] under the comment "Check tool cache first":
    the tool path and the [cacheHit] flag. *)
Definition install (env : Env) (version : string) (platformInfo : PlatformInfo)
    : M (string * bool) :=
  toolPath <- call (Find TOOL_NAME version) (tc_find env TOOL_NAME version) ;;
  if truthy toolPath
  then
    emit (Info ("Found Taskfile " ++ version ++ " in tool cache")) ;;;
    ret (toolPath, true)
  else
    emit (Info ("Taskfile " ++ version ++ " not found in cache, downloading...")) ;;;
    let downloadUrl := getDownloadUrl version platformInfo in
    toolPath <- downloadAndExtract env downloadUrl version platformInfo ;;
    ret (toolPath, false).

(** The body of the [try] block of [run]. *)
Definition runBody (env : Env) : M unit :=
  raw <- call (GetInput "version") (inr (core_getInput env "version")) ;;
  let versionInput := if truthy raw then raw else "latest" in
  token <- call (GetInput "github-token") (inr (core_getInput env "github-token")) ;;
  platformInfo <- lift (getPlatformInfo env) ;;
  emit (Info ("Detected platform: " ++ os platformInfo ++ "/" ++ arch platformInfo)) ;;;
  version <- resolveVersion env versionInput token ;;
  installed <- install env version platformInfo ;;
  let toolPath := fst installed in
  let cacheHit := snd installed in
  call (AddPath toolPath) (core_addPath env toolPath) ;;;
  emit (Info ("Added " ++ toolPath ++ " to PATH")) ;;;
  verifyInstallation env ;;;
  emit (SetOutput "version" version) ;;;
  emit (SetOutput "cache-hit" (boolToString cacheHit)) ;;;
  emit (Info ("Successfully setup Taskfile v" ++ version)).

Definition run (env : Env) : M unit :=
  tryCatch (runBody env)
    (fun error =>
       match error with
       | ErrorObj _ message => emit (SetFailed message)
       | NonError _ => emit (SetFailed "An unexpected error occurred")
       end).

(** ** Reading a trace *)

Definition isNetwork (ev : Event) : bool :=
  match ev with
  | GetLatestRelease _ _ | DownloadTool _ => true
  | _ => false
  end.

Definition isCache (ev : Event) : bool :=
  match ev with
  | Find _ _ | CacheDir _ _ _ => true
  | _ => false
  end.

Definition isDownload (ev : Event) : bool :=
  match ev with
  | DownloadTool _ => true
  | _ => false
  end.

Definition isExtract (ev : Event) : bool :=
  match ev with
  | ExtractZip _ | ExtractTar _ => true
  | _ => false
  end.

Definition isRegistryQuery (ev : Event) : bool :=
  match ev with
  | GetLatestRelease _ _ => true
  | _ => false
  end.

(** The calls of the download, extract and cache-write sequence. *)
Definition isInstallStep (ev : Event) : bool :=
  match ev with
  | DownloadTool _ | ExtractZip _ | ExtractTar _ | CacheDir _ _ _ => true
  | _ => false
  end.

(** The outputs set by a trace, in order, and the failure messages. *)
Fixpoint outputs (tr : list Event) : list (string * string) :=
  match tr with
  | [] => []
  | SetOutput name value :: rest => (name, value) :: outputs rest
  | _ :: rest => outputs rest
  end.

Fixpoint failures (tr : list Event) : list string :=
  match tr with
  | [] => []
  | SetFailed msg :: rest => msg :: failures rest
  | _ :: rest => failures rest
  end.

(** What a thrown value reads as in a failure status: the message of an
    error object, a fixed text for any other value. *)
Definition failureMessage (error : thrown) : string :=
  match error with
  | ErrorObj _ message => message
  | NonError _ => "An unexpected error occurred"
  end.

(** The supported enumerations of host identifiers. *)
Definition supportedPlatform (platform : string) : bool :=
  existsb (String.eqb platform) ["linux"; "darwin"; "win32"; "freebsd"].

Definition supportedArch (arch : string) : bool :=
  existsb (String.eqb arch) ["x64"; "arm64"; "arm"; "ia32"].

(** The requested version as [run] reads it: [core.getInput('version') || 'latest']. *)
Definition versionInput (env : Env) : string :=
  let raw := core_getInput env "version" in
  if truthy raw then raw else "latest".

(** ** Sample hosts

    A runner whose libraries answer as the hosted ones do when nothing goes
    wrong: the registry's latest tag is [latestTag], the tool cache answers
    [cached] (the empty string on a miss), a client needs a token. *)
Definition runner (platform arch version token : string)
    (latestTag : thrown + string) (cached : string) : Env :=
  {| os_platform := platform;
     os_arch := arch;
     core_getInput := fun name =>
       if name =? "version" then version
       else if name =? "github-token" then token
       else "";
     github_getOctokit := fun t =>
       if t =? "" then inl (newError "Parameter token or opts.auth is required")
       else inr tt;
     repos_getLatestRelease := fun _ _ _ => latestTag;
     tc_find := fun _ _ => inr cached;
     tc_downloadTool := fun _ => inr "/tmp/archive";
     tc_extractZip := fun _ => inr "/tmp/unzipped";
     tc_extractTar := fun _ => inr "/tmp/untarred";
     tc_cacheDir := fun _ tool version =>
       inr ("/opt/hostedtoolcache/" ++ tool ++ "/" ++ version ++ "/" ++ arch);
     core_addPath := fun _ => inr tt;
     exec_exec := fun _ _ => inr ["Task version: "; "3.46.4"; String "010"%char ""] |}.

(** The same runner with a download that is rejected with [error]. *)
Definition offlineRunner (platform arch version token : string)
    (latestTag : thrown + string) (error : thrown) : Env :=
  let env := runner platform arch version token latestTag "" in
  {| os_platform := os_platform env;
     os_arch := os_arch env;
     core_getInput := core_getInput env;
     github_getOctokit := github_getOctokit env;
     repos_getLatestRelease := repos_getLatestRelease env;
     tc_find := tc_find env;
     tc_downloadTool := fun _ => inl error;
     tc_extractZip := tc_extractZip env;
     tc_extractTar := tc_extractTar env;
     tc_cacheDir := tc_cacheDir env;
     core_addPath := core_addPath env;
     exec_exec := exec_exec env |}.

(** First run of the end-to-end scenario: [latest] is requested, the
    registry's latest tag is v3.50.0, the cache is empty. *)
Definition freshRunner : Env :=
  runner "linux" "x64" "latest" "tok" (inr "v3.50.0") "".

(** A runner whose cache already holds task 3.46.4. *)
Definition warmRunner : Env :=
  runner "linux" "x64" "v3.46.4" "tok" (inr "v3.50.0")
    "/opt/hostedtoolcache/task/3.46.4/x64".

(** A Windows runner asked for an explicit version, with an empty cache. *)
Definition windowsRunner : Env :=
  runner "win32" "arm64" "3.46.4" "tok" (inr "v3.50.0") "".

(** Hosts outside the supported enumerations. *)
Definition mipsRunner : Env :=
  runner "linux" "mips" "latest" "tok" (inr "v3.50.0") "".

Definition sunosRunner : Env :=
  runner "sunos" "x64" "latest" "tok" (inr "v3.50.0") "".

(** [Latest] is requested and the registry rejects the credentials. *)
Definition unauthorizedRunner : Env :=
  runner "linux" "x64" "Latest" "tok"
    (inl (ErrorObj "HttpError" "Bad credentials")) "".

(** [latest] is requested with an empty token, from which no client can
    be created. *)
Definition emptyTokenRunner : Env :=
  runner "linux" "x64" "latest" "" (inr "v3.50.0") "".

(** A doubled prefix is requested. *)
Definition doubledPrefixRunner : Env :=
  runner "linux" "x64" "vv3.46.4" "tok" (inr "v3.50.0") "".

(** ** Reading a trace: kinds of calls and their order *)

Definition isInfo (ev : Event) : bool :=
  match ev with
  | Info _ => true
  | _ => false
  end.

Definition isClientCreation (ev : Event) : bool :=
  match ev with
  | GetOctokit _ => true
  | _ => false
  end.

Definition isCacheLookup (ev : Event) : bool :=
  match ev with
  | Find _ _ => true
  | _ => false
  end.

Definition isCacheWrite (ev : Event) : bool :=
  match ev with
  | CacheDir _ _ _ => true
  | _ => false
  end.

Definition isAddPath (ev : Event) : bool :=
  match ev with
  | AddPath _ => true
  | _ => false
  end.

Definition isExec (ev : Event) : bool :=
  match ev with
  | Exec _ _ => true
  | _ => false
  end.

Definition isSetFailed (ev : Event) : bool :=
  match ev with
  | SetFailed _ => true
  | _ => false
  end.

(** The position of a call in the sequence of [run]: the two input reads,
    the client, the registry query, the cache lookup, the download, the
    extraction, the cache write, the path, the verification, the two
    outputs, the failure status.  Log lines have no position. *)
Definition phase (ev : Event) : nat :=
  match ev with
  | GetInput name => if name =? "version" then 0 else 1
  | GetOctokit _ => 2
  | GetLatestRelease _ _ => 3
  | Find _ _ => 4
  | DownloadTool _ => 5
  | ExtractZip _ | ExtractTar _ => 6
  | CacheDir _ _ _ => 7
  | AddPath _ => 8
  | Exec _ _ => 9
  | SetOutput name _ => if name =? "version" then 10 else 11
  | SetFailed _ => 12
  | Info _ => 0
  end.

(** The positions of the calls of a trace other than log lines. *)
Definition phases (tr : list Event) : list nat :=
  map phase (filter (fun ev => negb (isInfo ev)) tr).

Fixpoint ascending (l : list nat) : bool :=
  match l with
  | a :: (b :: _) as rest => andb (Nat.ltb a b) (ascending rest)
  | _ => true
  end.

(** The environment [env] with the input [version] set to [requested]. *)
Definition withVersion (env : Env) (requested : string) : Env :=
  {| os_platform := os_platform env;
     os_arch := os_arch env;
     core_getInput := fun name =>
       if name =? "version" then requested else core_getInput env name;
     github_getOctokit := github_getOctokit env;
     repos_getLatestRelease := repos_getLatestRelease env;
     tc_find := tc_find env;
     tc_downloadTool := tc_downloadTool env;
     tc_extractZip := tc_extractZip env;
     tc_extractTar := tc_extractTar env;
     tc_cacheDir := tc_cacheDir env;
     core_addPath := core_addPath env;
     exec_exec := exec_exec env |}.

(** A runner whose installed binary cannot be started. *)
Definition brokenBinaryRunner : Env :=
  let env := warmRunner in
  {| os_platform := os_platform env;
     os_arch := os_arch env;
     core_getInput := core_getInput env;
     github_getOctokit := github_getOctokit env;
     repos_getLatestRelease := repos_getLatestRelease env;
     tc_find := tc_find env;
     tc_downloadTool := tc_downloadTool env;
     tc_extractZip := tc_extractZip env;
     tc_extractTar := tc_extractTar env;
     tc_cacheDir := tc_cacheDir env;
     core_addPath := core_addPath env;
     exec_exec := fun _ _ =>
       inl (newError "Unable to locate executable file: task") |}.

(** ** Proof automation: unfold the program, then split on each answer *)

Ltac crunch :=
  cbv beta iota zeta delta
    [run runBody resolveVersion install getLatestVersion downloadAndExtract
     verifyInstallation bind call emit ret lift throw tryCatch events outcome
     fst snd app versionInput newError TOOL_NAME REPO_OWNER REPO_NAME];
  repeat match goal with
  | |- context [if truthy (core_getInput ?e "version")
                then core_getInput ?e "version" else "latest"] =>
      change (if truthy (core_getInput e "version")
              then core_getInput e "version" else "latest")
        with (versionInput e)
  end.

Ltac case_thrown :=
  match goal with
  | |- context [match ?t with ErrorObj _ _ => _ | NonError _ => _ end] =>
      is_var t; destruct t
  end.

Ltac case_answer :=
  match goal with
  | |- context [match getPlatformInfo ?e with _ => _ end] =>
      destruct (getPlatformInfo e) eqn:?
  | |- context [if toLowerCase ?s =? "latest" then _ else _] =>
      destruct (toLowerCase s =? "latest") eqn:?
  | |- context [match github_getOctokit ?e ?t with _ => _ end] =>
      destruct (github_getOctokit e t) eqn:?
  | |- context [match repos_getLatestRelease ?e ?t ?o ?r with _ => _ end] =>
      destruct (repos_getLatestRelease e t o r) eqn:?
  | |- context [match tc_find ?e ?t ?v with _ => _ end] =>
      destruct (tc_find e t v) eqn:?
  | |- context [if truthy ?s then _ else _] =>
      destruct (truthy s) eqn:?
  | |- context [match tc_downloadTool ?e ?u with _ => _ end] =>
      destruct (tc_downloadTool e u) eqn:?
  | |- context [if ext ?p =? "zip" then _ else _] =>
      destruct (ext p =? "zip") eqn:?
  | |- context [match tc_extractZip ?e ?u with _ => _ end] =>
      destruct (tc_extractZip e u) eqn:?
  | |- context [match tc_extractTar ?e ?u with _ => _ end] =>
      destruct (tc_extractTar e u) eqn:?
  | |- context [match tc_cacheDir ?e ?d ?t ?v with _ => _ end] =>
      destruct (tc_cacheDir e d t v) eqn:?
  | |- context [match core_addPath ?e ?d with _ => _ end] =>
      destruct (core_addPath e d) eqn:?
  | |- context [match exec_exec ?e ?c ?a with _ => _ end] =>
      destruct (exec_exec e c a) eqn:?
  | |- _ => case_thrown
  end; crunch.

(** Replay the answers already named by hypotheses. *)
Ltac use_answers :=
  crunch;
  repeat (progress (repeat match goal with
                           | H : ?x = _ |- context [?x] => rewrite H
                           end);
          crunch).

Ltac run_cases := use_answers; repeat (case_answer; use_answers).

(** The same on one computation [m], the rest of the goal set aside. *)
Ltac cases_of m :=
  pattern m;
  match goal with
  | |- ?P _ => let Q := fresh "Q" in set (Q := P); run_cases; subst Q; cbv beta; crunch
  end.

(** * Properties *)

(** ** Artifact locator *)

(** C1: [getDownloadUrl] returns, for every version and platform tuple, the
    fixed prefix followed by the version, [/task_], the OS name, [_], the
    arch name, [.] and the extension; version 3.46.4 on (linux, amd64,
    tar.gz) gives the documented URL. *)
Theorem getDownloadUrl_spec :
  (forall (v : string) (p : PlatformInfo),
      getDownloadUrl v p =
      "https://github.com/go-task/task/releases/download/v" ++ v
        ++ "/task_" ++ os p ++ "_" ++ arch p ++ "." ++ ext p)
  /\ getDownloadUrl "3.46.4" {| os := "linux"; arch := "amd64"; ext := "tar.gz" |}
     = "https://github.com/go-task/task/releases/download/v3.46.4/task_linux_amd64.tar.gz".
Proof.
  split; [intros v p | reflexivity].
  unfold getDownloadUrl, REPO_OWNER, REPO_NAME. reflexivity.
Qed.

(** ** Platform resolver *)

Lemma platformSwitch_unsupported (platform : string) :
  supportedPlatform platform = false ->
  platformSwitch platform = inl (newError ("Unsupported platform: " ++ platform)).
Proof.
  unfold supportedPlatform, platformSwitch. cbn [existsb].
  intros H.
  repeat (apply orb_false_elim in H; destruct H as [E H]; rewrite E; clear E).
  reflexivity.
Qed.

Lemma archSwitch_unsupported (a : string) :
  supportedArch a = false ->
  archSwitch a = inl (newError ("Unsupported architecture: " ++ a)).
Proof.
  unfold supportedArch, archSwitch. cbn [existsb].
  intros H.
  repeat (apply orb_false_elim in H; destruct H as [E H]; rewrite E; clear E).
  reflexivity.
Qed.

Lemma platformSwitch_supported (platform : string) :
  supportedPlatform platform = true ->
  exists names, platformSwitch platform = inr names.
Proof.
  unfold supportedPlatform, platformSwitch. cbn [existsb].
  repeat (destruct (platform =? _); [eexists; reflexivity |]).
  discriminate.
Qed.

Lemma archSwitch_supported (a : string) :
  supportedArch a = true ->
  exists name, archSwitch a = inr name.
Proof.
  unfold supportedArch, archSwitch. cbn [existsb].
  repeat (destruct (a =? _); [eexists; reflexivity |]).
  discriminate.
Qed.

(** C3: the platform switch maps linux, darwin, win32 and freebsd to
    (linux, tar.gz), (darwin, tar.gz), (windows, zip) and (freebsd, tar.gz)
    and throws on any other identifier; the resolver returns these names
    together with the arch name the arch switch gives, and on any other
    platform identifier it throws an error whose message ends with that
    identifier, whatever the architecture. *)
Theorem getPlatformInfo_os_mapping (env : Env) :
  (platformSwitch "linux" = inr ("linux", "tar.gz")
   /\ platformSwitch "darwin" = inr ("darwin", "tar.gz")
   /\ platformSwitch "win32" = inr ("windows", "zip")
   /\ platformSwitch "freebsd" = inr ("freebsd", "tar.gz")
   /\ forall platform, supportedPlatform platform = false ->
        platformSwitch platform
        = inl (newError ("Unsupported platform: " ++ platform)))
  /\ (forall taskArch, archSwitch (os_arch env) = inr taskArch ->
     (os_platform env = "linux" ->
        getPlatformInfo env = inr {| os := "linux"; arch := taskArch; ext := "tar.gz" |})
     /\ (os_platform env = "darwin" ->
        getPlatformInfo env = inr {| os := "darwin"; arch := taskArch; ext := "tar.gz" |})
     /\ (os_platform env = "win32" ->
        getPlatformInfo env = inr {| os := "windows"; arch := taskArch; ext := "zip" |})
     /\ (os_platform env = "freebsd" ->
        getPlatformInfo env = inr {| os := "freebsd"; arch := taskArch; ext := "tar.gz" |}))
  /\ (supportedPlatform (os_platform env) = false ->
        getPlatformInfo env
        = inl (newError ("Unsupported platform: " ++ os_platform env))).
Proof.
  split; [| split].
  - repeat split; try reflexivity. exact platformSwitch_unsupported.
  - intros taskArch Ha.
    repeat split; intros Hp; unfold getPlatformInfo; rewrite Hp, Ha; reflexivity.
  - intros Hp. unfold getPlatformInfo.
    rewrite (platformSwitch_unsupported _ Hp). reflexivity.
Qed.

Lemma getPlatformInfo_os_mapping_witness :
  getPlatformInfo windowsRunner
  = inr {| os := "windows"; arch := "arm64"; ext := "zip" |}
  /\ getPlatformInfo sunosRunner = inl (newError "Unsupported platform: sunos").
Proof.
  split.
  - destruct (proj1 (proj2 (getPlatformInfo_os_mapping windowsRunner))
                "arm64" eq_refl) as (_ & _ & Hwin & _).
    exact (Hwin eq_refl).
  - exact (proj2 (proj2 (getPlatformInfo_os_mapping sunosRunner)) eq_refl).
Defined.


(** C4: on a platform the first switch accepts, x64, arm64, arm and ia32
    give the arch names amd64, arm64, arm and 386, and any other
    architecture identifier throws an error whose message ends with that
    identifier; the arch switch itself does so for every identifier. *)
Theorem getPlatformInfo_arch_mapping (env : Env) :
  (archSwitch "x64" = inr "amd64" /\ archSwitch "arm64" = inr "arm64"
   /\ archSwitch "arm" = inr "arm" /\ archSwitch "ia32" = inr "386"
   /\ forall a, supportedArch a = false ->
        archSwitch a = inl (newError ("Unsupported architecture: " ++ a)))
  /\ forall taskOs archive,
      platformSwitch (os_platform env) = inr (taskOs, archive) ->
      (os_arch env = "x64" ->
         getPlatformInfo env = inr {| os := taskOs; arch := "amd64"; ext := archive |})
      /\ (os_arch env = "arm64" ->
         getPlatformInfo env = inr {| os := taskOs; arch := "arm64"; ext := archive |})
      /\ (os_arch env = "arm" ->
         getPlatformInfo env = inr {| os := taskOs; arch := "arm"; ext := archive |})
      /\ (os_arch env = "ia32" ->
         getPlatformInfo env = inr {| os := taskOs; arch := "386"; ext := archive |})
      /\ (supportedArch (os_arch env) = false ->
         getPlatformInfo env
         = inl (newError ("Unsupported architecture: " ++ os_arch env))).
Proof.
  split.
  - repeat split; try reflexivity. exact archSwitch_unsupported.
  - intros taskOs archive Hp.
    repeat split; intros Ha; unfold getPlatformInfo; rewrite Hp.
    1-4: rewrite Ha; reflexivity.
    rewrite (archSwitch_unsupported _ Ha). reflexivity.
Qed.

Lemma getPlatformInfo_arch_mapping_witness :
  getPlatformInfo freshRunner
  = inr {| os := "linux"; arch := "amd64"; ext := "tar.gz" |}
  /\ getPlatformInfo mipsRunner
     = inl (newError "Unsupported architecture: mips").
Proof.
  split.
  - destruct (proj2 (getPlatformInfo_arch_mapping freshRunner)
                "linux" "tar.gz" eq_refl) as (Hx64 & _).
    exact (Hx64 eq_refl).
  - destruct (proj2 (getPlatformInfo_arch_mapping mipsRunner)
                "linux" "tar.gz" eq_refl) as (_ & _ & _ & _ & Hother).
    exact (Hother eq_refl).
Defined.


(** ** Version resolver *)

Lemma replaceLeadingV_without_v (s : string) :
  prefix "v" s = false -> replaceLeadingV s = s.
Proof.
  destruct s as [| c rest]; [reflexivity |].
  unfold replaceLeadingV. cbn [prefix].
  destruct (Ascii.eqb c "v") eqn:Ec; [| reflexivity].
  apply Ascii.eqb_eq in Ec. subst c.
  destruct rest; discriminate.
Qed.

(** C5: [normalizeVersion] removes one leading [v] and nothing else: on a
    string [s] that does not start with [v] it returns [s], on [v ++ s] it
    returns [s], and normalizing twice is normalizing once. *)
Theorem normalizeVersion_spec (s : string) :
  prefix "v" s = false ->
  normalizeVersion s = s
  /\ normalizeVersion ("v" ++ s) = s
  /\ normalizeVersion (normalizeVersion ("v" ++ s)) = normalizeVersion ("v" ++ s).
Proof.
  intros H.
  pose proof (replaceLeadingV_without_v s H) as E.
  split; [exact E | split; [reflexivity | exact E]].
Qed.

Lemma normalizeVersion_spec_witness :
  prefix "v" "3.46.4" = false
  /\ normalizeVersion "3.46.4" = "3.46.4"
  /\ normalizeVersion "v3.46.4" = "3.46.4".
Proof.
  split; [reflexivity |].
  destruct (normalizeVersion_spec "3.46.4" eq_refl) as (Hbare & Hprefixed & _).
  split; [exact Hbare | exact Hprefixed].
Defined.


(** ** The end-to-end scenario *)

Example first_run_downloads :
  run freshRunner
  = ([GetInput "version"; GetInput "github-token";
      Info "Detected platform: linux/amd64";
      Info "Fetching latest version...";
      GetOctokit "tok";
      GetLatestRelease "go-task" "task";
      Info "Latest version: 3.50.0";
      Find "task" "3.50.0";
      Info "Taskfile 3.50.0 not found in cache, downloading...";
      Info "Downloading Taskfile from https://github.com/go-task/task/releases/download/v3.50.0/task_linux_amd64.tar.gz";
      DownloadTool "https://github.com/go-task/task/releases/download/v3.50.0/task_linux_amd64.tar.gz";
      ExtractTar "/tmp/archive";
      CacheDir "/tmp/untarred" "task" "3.50.0";
      AddPath "/opt/hostedtoolcache/task/3.50.0/x64";
      Info "Added /opt/hostedtoolcache/task/3.50.0/x64 to PATH";
      Exec "task" ["--version"];
      Info "Taskfile installed: Task version: 3.46.4";
      SetOutput "version" "3.50.0";
      SetOutput "cache-hit" "false";
      Info "Successfully setup Taskfile v3.50.0"],
     inr tt).
Proof. reflexivity. Qed.

Example rerun_hits_cache :
  outputs (events (run (runner "linux" "x64" "latest" "tok" (inr "v3.50.0")
                          "/opt/hostedtoolcache/task/3.50.0/x64")))
  = [("version", "3.50.0"); ("cache-hit", "true")].
Proof. reflexivity. Qed.

Example rejected_download_sets_fixed_message :
  events (run (offlineRunner "linux" "x64" "3.46.4" "tok" (inr "v3.50.0")
                 (NonError "socket closed")))
  = [GetInput "version"; GetInput "github-token";
     Info "Detected platform: linux/amd64";
     Find "task" "3.46.4";
     Info "Taskfile 3.46.4 not found in cache, downloading...";
     Info "Downloading Taskfile from https://github.com/go-task/task/releases/download/v3.46.4/task_linux_amd64.tar.gz";
     DownloadTool "https://github.com/go-task/task/releases/download/v3.46.4/task_linux_amd64.tar.gz";
     SetFailed "An unexpected error occurred"].
Proof. reflexivity. Qed.

Example upper_case_prefix_is_kept :
  filter isCache (events (run (runner "linux" "x64" "V3.46.4" "tok"
                                 (inr "v3.50.0") "")))
  = [Find "task" "V3.46.4"; CacheDir "/tmp/untarred" "task" "V3.46.4"].
Proof. reflexivity. Qed.

(** ** Orchestrator *)

Lemma getPlatformInfo_fails (env : Env) :
  supportedPlatform (os_platform env) = false \/ supportedArch (os_arch env) = false ->
  getPlatformInfo env
  = inl (newError
           (if supportedPlatform (os_platform env)
            then "Unsupported architecture: " ++ os_arch env
            else "Unsupported platform: " ++ os_platform env)).
Proof.
  intros H. unfold getPlatformInfo.
  destruct (supportedPlatform (os_platform env)) eqn:Hp.
  - destruct H as [H | H]; [discriminate |].
    destruct (platformSwitch_supported _ Hp) as [[taskOs archive] E].
    rewrite E, (archSwitch_unsupported _ H). reflexivity.
  - rewrite (platformSwitch_unsupported _ Hp). reflexivity.
Qed.

(** C2: [run] itself never throws.  When a step of the [try] block throws,
    the trace ends with one [setFailed] carrying the message of the thrown
    error (the fixed text for a thrown value that is not an [Error]) and
    sets no output; when no step throws, no failure is set and exactly two
    outputs are set, [version] with the resolved version and [cache-hit]
    with [true] or [false]. *)
Theorem run_outputs_all_or_nothing (env : Env) :
  outcome (run env) = inr tt
  /\ (forall name message, failureMessage (ErrorObj name message) = message)
  /\ match outcome (runBody env) with
     | inl error =>
         events (run env)
         = (events (runBody env) ++ [SetFailed (failureMessage error)])%list
         /\ failures (events (run env)) = [failureMessage error]
         /\ outputs (events (run env)) = []
     | inr _ =>
         events (run env) = events (runBody env)
         /\ failures (events (run env)) = []
         /\ exists platformInfo version toolPath cacheHit,
             getPlatformInfo env = inr platformInfo
             /\ outcome (resolveVersion env (versionInput env)
                           (core_getInput env "github-token")) = inr version
             /\ outcome (install env version platformInfo) = inr (toolPath, cacheHit)
             /\ outputs (events (run env))
                = [("version", version);
                   ("cache-hit", if cacheHit then "true" else "false")]
     end.
Proof.
  split; [| split; [reflexivity |]].
  - run_cases; reflexivity.
  - unfold run. cases_of (runBody env); try (case_thrown; crunch);
      lazymatch goal with
      | |- _ /\ _ /\ ex _ =>
          split; [reflexivity | split; [reflexivity |]];
          do 4 eexists;
          split; [use_answers; reflexivity | split; [| split]];
          [use_answers; reflexivity | use_answers; reflexivity | reflexivity]
      | |- _ => split; [reflexivity | split; reflexivity]
      end.
Qed.

(** C8: when the host platform or architecture is not a supported one, the
    whole run is the two input reads followed by [setFailed] with the
    resolver's message (the platform's when the platform is unsupported,
    the architecture's otherwise), so it contains no registry query, no
    download and no cache call; and in any run, a network or cache call is
    only made after the platform was resolved. *)
Theorem unsupported_host_fails_first (env : Env) :
  (supportedPlatform (os_platform env) = false
   \/ supportedArch (os_arch env) = false ->
   events (run env)
   = [GetInput "version"; GetInput "github-token";
      SetFailed (if supportedPlatform (os_platform env)
                 then "Unsupported architecture: " ++ os_arch env
                 else "Unsupported platform: " ++ os_platform env)]
   /\ filter isNetwork (events (run env)) = []
   /\ filter isCache (events (run env)) = []
   /\ outputs (events (run env)) = [])
  /\ (forall ev, In ev (events (run env)) ->
      isNetwork ev = true \/ isCache ev = true ->
      exists platformInfo, getPlatformInfo env = inr platformInfo).
Proof.
  split.
  - intros H. pose proof (getPlatformInfo_fails env H) as He.
    run_cases. repeat split; reflexivity.
  - intros ev Hin Hkind.
    destruct (getPlatformInfo env) as [e | platformInfo] eqn:He;
      [| now exists platformInfo].
    exfalso. revert Hin. run_cases; cbn [In];
      intros [<- | [<- | [<- | []]]]; destruct Hkind; discriminate.
Qed.

Lemma unsupported_host_fails_first_witness :
  supportedArch (os_arch mipsRunner) = false
  /\ events (run mipsRunner)
     = [GetInput "version"; GetInput "github-token";
        SetFailed "Unsupported architecture: mips"]
  /\ events (run sunosRunner)
     = [GetInput "version"; GetInput "github-token";
        SetFailed "Unsupported platform: sunos"]
  /\ exists platformInfo, getPlatformInfo freshRunner = inr platformInfo.
Proof.
  split; [reflexivity | split; [| split]].
  - exact (proj1 (proj1 (unsupported_host_fails_first mipsRunner)
                    (or_intror eq_refl))).
  - exact (proj1 (proj1 (unsupported_host_fails_first sunosRunner)
                    (or_introl eq_refl))).
  - apply (proj2 (unsupported_host_fails_first freshRunner)
             (GetLatestRelease "go-task" "task")).
    + vm_compute. tauto.
    + left. reflexivity.
Defined.


(** ** Version resolution inside a run *)

Lemma truthy_false (s : string) : truthy s = false -> s = "".
Proof.
  unfold truthy. intros H. apply negb_false_iff in H. now apply String.eqb_eq.
Qed.

(** Where a resolved version comes from: the requested string, or the tag
    answered by the registry, through [replace(/^v/, '')]. *)
Lemma resolveVersion_inv (env : Env) (requested token version : string) :
  outcome (resolveVersion env requested token) = inr version ->
  ((toLowerCase requested =? "latest") = false
   /\ version = normalizeVersion requested)
  \/ ((toLowerCase requested =? "latest") = true
      /\ github_getOctokit env token = inr tt
      /\ exists tag_name,
          repos_getLatestRelease env token "go-task" "task" = inr tag_name
          /\ version = replaceLeadingV tag_name).
Proof.
  run_cases; intros H; try discriminate; injection H as <-.
  - right. split; [reflexivity |]. destruct u. split; [reflexivity |].
    eexists. split; reflexivity.
  - left. split; reflexivity.
Qed.

(** C6 (as amended): when the requested version is [latest] in any letter
    case, the resolver first creates the client from the token.  When the
    client is created it makes exactly one registry query, for
    go-task/task; an answered tag is returned with one leading [v] removed,
    a rejected query is rethrown as [Failed to fetch latest version: ]
    followed by the text of the rejection.  When creating the client
    throws, the resolver throws without any registry query.  In a run whose
    platform was resolved the same holds of the whole run: with a client,
    one registry query, and on its rejection the run fails with that
    message, sets no output and makes no download; without a client, no
    registry query, one failure status, no output and no download. *)
Theorem latest_queries_registry_once (env : Env) (requested token : string) :
  toLowerCase requested = "latest" ->
  (exists rest,
      events (resolveVersion env requested token)
      = Info "Fetching latest version..." :: GetOctokit token :: rest)
  /\ match github_getOctokit env token with
     | inr _ =>
         filter isRegistryQuery (events (resolveVersion env requested token))
         = [GetLatestRelease "go-task" "task"]
         /\ outcome (resolveVersion env requested token)
            = match repos_getLatestRelease env token "go-task" "task" with
              | inr tag_name => inr (replaceLeadingV tag_name)
              | inl error =>
                  inl (newError
                         ("Failed to fetch latest version: " ++ toString error))
              end
     | inl _ =>
         filter isRegistryQuery (events (resolveVersion env requested token))
         = []
         /\ exists error,
             outcome (resolveVersion env requested token) = inl error
     end
  /\ (requested = versionInput env ->
      token = core_getInput env "github-token" ->
      forall platformInfo, getPlatformInfo env = inr platformInfo ->
      match github_getOctokit env token with
      | inr _ =>
          filter isRegistryQuery (events (run env))
          = [GetLatestRelease "go-task" "task"]
          /\ forall error,
              repos_getLatestRelease env token "go-task" "task" = inl error ->
              failures (events (run env))
              = ["Failed to fetch latest version: " ++ toString error]
              /\ filter isDownload (events (run env)) = []
              /\ outputs (events (run env)) = []
      | inl _ =>
          filter isRegistryQuery (events (run env)) = []
          /\ length (failures (events (run env))) = 1
          /\ filter isDownload (events (run env)) = []
          /\ outputs (events (run env)) = []
      end).
Proof.
  intros Hlatest.
  assert (Hb : (toLowerCase requested =? "latest") = true)
    by now apply String.eqb_eq.
  split; [run_cases; eexists; reflexivity |].
  destruct (github_getOctokit env token) as [rejection | client] eqn:Hclient.
  - split.
    + split; [run_cases; reflexivity |].
      exists rejection. run_cases. reflexivity.
    + intros -> -> platformInfo Hplat.
      run_cases; repeat split; reflexivity.
  - split.
    + split; run_cases; reflexivity.
    + intros -> -> platformInfo Hplat. split.
      * run_cases; reflexivity.
      * intros error Hq. run_cases. repeat split; reflexivity.
Qed.

Lemma latest_queries_registry_once_witness :
  toLowerCase "Latest" = "latest"
  /\ outcome (resolveVersion
                (runner "linux" "x64" "LATEST" "tok" (inr "v3.46.4") "")
                "LATEST" "tok") = inr "3.46.4"
  /\ filter isRegistryQuery (events (run freshRunner))
     = [GetLatestRelease "go-task" "task"]
  /\ failures (events (run unauthorizedRunner))
     = ["Failed to fetch latest version: HttpError: Bad credentials"]
  /\ filter isDownload (events (run unauthorizedRunner)) = []
  /\ outputs (events (run unauthorizedRunner)) = []
  /\ filter isRegistryQuery (events (run emptyTokenRunner)) = []
  /\ outputs (events (run emptyTokenRunner)) = [].
Proof.
  split; [reflexivity |].
  destruct (latest_queries_registry_once
              (runner "linux" "x64" "LATEST" "tok" (inr "v3.46.4") "")
              "LATEST" "tok" eq_refl) as (_ & Hres & _).
  destruct Hres as (_ & Hout).
  destruct (latest_queries_registry_once freshRunner "latest" "tok" eq_refl)
    as (_ & _ & Hrun).
  destruct (Hrun eq_refl eq_refl _ eq_refl) as (Honce & _).
  destruct (latest_queries_registry_once unauthorizedRunner "Latest" "tok"
              eq_refl) as (_ & _ & Hrun').
  destruct (Hrun' eq_refl eq_refl _ eq_refl) as (_ & Hfail).
  destruct (Hfail _ eq_refl) as (Hmsg & Hdl & Hno).
  destruct (latest_queries_registry_once emptyTokenRunner "latest" ""
              eq_refl) as (_ & _ & Hrun'').
  destruct (Hrun'' eq_refl eq_refl _ eq_refl) as (Hnone & _ & _ & Hno').
  repeat split; assumption.
Defined.

(** C6 as stated fails: with [latest] requested and an empty token, from
    which the client cannot be created, the resolver and the run make no
    registry query at all, and the failure status is the client's own
    message, without the [Failed to fetch latest version: ] prefix. *)
Lemma latest_without_client_makes_no_query :
  toLowerCase (versionInput emptyTokenRunner) = "latest"
  /\ filter isRegistryQuery
       (events (resolveVersion emptyTokenRunner (versionInput emptyTokenRunner)
                  (core_getInput emptyTokenRunner "github-token"))) = []
  /\ filter isRegistryQuery (events (run emptyTokenRunner)) = []
  /\ failures (events (run emptyTokenRunner))
     = ["Parameter token or opts.auth is required"].
Proof.
  repeat split; reflexivity.
Qed.

(** The client is created outside the [try] of [getLatestVersion]: when
    its creation throws, no query is made and the error is not wrapped. *)
Lemma client_rejected_before_query (env : Env) (requested token : string)
    (error : thrown) :
  toLowerCase requested = "latest" ->
  github_getOctokit env token = inl error ->
  resolveVersion env requested token
  = ([Info "Fetching latest version..."; GetOctokit token], inl error).
Proof.
  intros Hlatest Hclient.
  assert (Hb : (toLowerCase requested =? "latest") = true)
    by now apply String.eqb_eq.
  run_cases. reflexivity.
Qed.

Example empty_token_fails_unwrapped :
  events (run (runner "linux" "x64" "latest" "" (inr "v3.50.0") ""))
  = [GetInput "version"; GetInput "github-token";
     Info "Detected platform: linux/amd64";
     Info "Fetching latest version...";
     GetOctokit "";
     SetFailed "Parameter token or opts.auth is required"].
Proof. reflexivity. Qed.

(** ** Cache-aware installer *)

(** C7: when the tool cache answers a path for (task, v), v being the
    resolved version, the installer is the lookup alone: it returns that
    path with [cacheHit = true], the run makes no download, extraction or
    cache write, publishes that path, and a run that completes reports
    [cache-hit] as [true].  Conversely a download, extraction or cache write
    appears in a run only after the lookup for the resolved version answered
    the empty string. *)
Theorem cache_hit_skips_download (env : Env) :
  (forall platformInfo version cachedPath,
      getPlatformInfo env = inr platformInfo ->
      outcome (resolveVersion env (versionInput env)
                 (core_getInput env "github-token")) = inr version ->
      tc_find env "task" version = inr cachedPath ->
      truthy cachedPath = true ->
      install env version platformInfo
      = ([Find "task" version;
          Info ("Found Taskfile " ++ version ++ " in tool cache")],
         inr (cachedPath, true))
      /\ filter isInstallStep (events (run env)) = []
      /\ filter isDownload (events (run env)) = []
      /\ filter isExtract (events (run env)) = []
      /\ In (AddPath cachedPath) (events (run env))
      /\ (outcome (runBody env) = inr tt ->
          outputs (events (run env))
          = [("version", version); ("cache-hit", "true")]))
  /\ (forall ev, In ev (events (run env)) -> isInstallStep ev = true ->
      exists platformInfo version,
        getPlatformInfo env = inr platformInfo
        /\ outcome (resolveVersion env (versionInput env)
                      (core_getInput env "github-token")) = inr version
        /\ tc_find env "task" version = inr "").
Proof.
  split.
  - intros platformInfo version cachedPath Hplat Hres Hfind Hhit.
    split; [use_answers; reflexivity |].
    apply resolveVersion_inv in Hres.
    destruct Hres as [[Hl ->] | (Hl & Hclient & tag_name & Hq & ->)].
    + run_cases; repeat split; cbn; auto 20; discriminate.
    + run_cases; repeat split; cbn; auto 20; discriminate.
  - intros ev. run_cases; cbn [In]; intros Hin Hstep;
      repeat match goal with
             | H : _ \/ _ |- _ => destruct H as [<- | H]; try discriminate Hstep
             | H : False |- _ => destruct H
             end.
    all: do 2 eexists; split; [reflexivity |]; split; [reflexivity |].
    all: match goal with
         | H : truthy ?s = false |- _ => apply truthy_false in H; subst s
         end; assumption.
Qed.

Lemma cache_hit_skips_download_witness :
  tc_find warmRunner "task" "3.46.4" = inr "/opt/hostedtoolcache/task/3.46.4/x64"
  /\ filter isInstallStep (events (run warmRunner)) = []
  /\ In (AddPath "/opt/hostedtoolcache/task/3.46.4/x64") (events (run warmRunner))
  /\ outputs (events (run warmRunner))
     = [("version", "3.46.4"); ("cache-hit", "true")]
  /\ exists platformInfo version,
       getPlatformInfo windowsRunner = inr platformInfo
       /\ outcome (resolveVersion windowsRunner (versionInput windowsRunner)
                     (core_getInput windowsRunner "github-token")) = inr version
       /\ tc_find windowsRunner "task" version = inr "".
Proof.
  split; [reflexivity |].
  destruct (proj1 (cache_hit_skips_download warmRunner)
              {| os := "linux"; arch := "amd64"; ext := "tar.gz" |}
              "3.46.4" "/opt/hostedtoolcache/task/3.46.4/x64"
              eq_refl eq_refl eq_refl eq_refl)
    as (_ & Hnone & _ & _ & Hpath & Hout).
  split; [exact Hnone | split; [exact Hpath | split; [exact (Hout eq_refl) |]]].
  apply (proj2 (cache_hit_skips_download windowsRunner)
           (ExtractZip "/tmp/archive")).
  - vm_compute. tauto.
  - reflexivity.
Defined.


(** ** Resolved version *)

(** C9 (as amended): the resolved version is the requested string, or in the
    [latest] branch the registry's tag, with exactly one leading [v]
    removed; when what remains is a non-empty string [s] without a leading
    [v], the resolved version is [s].  Once the platform is resolved the run
    looks up (task, version) in the cache, and every cache lookup, cache
    write and download of the run uses that version verbatim, the download
    through [getDownloadUrl]. *)
Theorem resolved_version_strips_one_v (env : Env) :
  forall platformInfo version,
    getPlatformInfo env = inr platformInfo ->
    outcome (resolveVersion env (versionInput env)
               (core_getInput env "github-token")) = inr version ->
    (exists source,
        (toLowerCase (versionInput env) <> "latest" /\ source = versionInput env
         \/ toLowerCase (versionInput env) = "latest"
            /\ repos_getLatestRelease env (core_getInput env "github-token")
                 "go-task" "task" = inr source)
        /\ version = replaceLeadingV source
        /\ forall s, s <> "" -> prefix "v" s = false ->
             source = s \/ source = "v" ++ s ->
             version = s /\ version <> "" /\ prefix "v" version = false)
    /\ In (Find "task" version) (events (run env))
    /\ forall ev, In ev (events (run env)) ->
         match ev with
         | Find tool v => tool = "task" /\ v = version
         | CacheDir _ tool v => tool = "task" /\ v = version
         | DownloadTool url => url = getDownloadUrl version platformInfo
         | _ => True
         end.
Proof.
  intros platformInfo version Hplat Hres.
  assert (Hshape : forall source, version = replaceLeadingV source ->
            forall s, s <> "" -> prefix "v" s = false ->
              source = s \/ source = "v" ++ s ->
              version = s /\ version <> "" /\ prefix "v" version = false).
  { intros source -> s Hne Hv [-> | ->].
    - rewrite (replaceLeadingV_without_v _ Hv). auto.
    - cbn. auto. }
  apply resolveVersion_inv in Hres.
  destruct Hres as [[Hl ->] | (Hl & Hclient & tag_name & Hq & ->)].
  - split; [| split].
    + exists (versionInput env). split; [left; split; [| reflexivity] |].
      * intros E. apply String.eqb_eq in E. congruence.
      * split; [reflexivity | now apply Hshape].
    + run_cases; cbn; auto 20.
    + intros ev. run_cases; cbn [In]; intros Hin;
        repeat match goal with
               | H : _ \/ _ |- _ => destruct H as [<- | H]
               | H : False |- _ => destruct H
               end; auto.
  - split; [| split].
    + exists tag_name. split; [right; split; [now apply String.eqb_eq | exact Hq] |].
      split; [reflexivity | now apply Hshape].
    + run_cases; cbn; auto 20.
    + intros ev. run_cases; cbn [In]; intros Hin;
        repeat match goal with
               | H : _ \/ _ |- _ => destruct H as [<- | H]
               | H : False |- _ => destruct H
               end; auto.
Qed.

Lemma resolved_version_strips_one_v_witness :
  outcome (resolveVersion warmRunner (versionInput warmRunner)
             (core_getInput warmRunner "github-token")) = inr "3.46.4"
  /\ In (Find "task" "3.46.4") (events (run warmRunner))
  /\ In (Find "task" "v3.46.4") (events (run doubledPrefixRunner)).
Proof.
  split; [reflexivity |].
  destruct (resolved_version_strips_one_v warmRunner
              {| os := "linux"; arch := "amd64"; ext := "tar.gz" |} "3.46.4"
              eq_refl eq_refl) as (_ & Hfind & _).
  destruct (resolved_version_strips_one_v doubledPrefixRunner
              {| os := "linux"; arch := "amd64"; ext := "tar.gz" |} "v3.46.4"
              eq_refl eq_refl) as (_ & Hfind' & _).
  split; assumption.
Defined.

(** C9 as stated fails: [vv3.46.4] is resolved to [v3.46.4], which keeps a
    leading [v] and is the version looked up in the cache and downloaded,
    and [v] alone, like a registry tag [v], is resolved to the empty
    string. *)
Lemma resolved_version_may_keep_v_or_be_empty :
  outcome (resolveVersion doubledPrefixRunner
             (versionInput doubledPrefixRunner)
             (core_getInput doubledPrefixRunner "github-token"))
  = inr "v3.46.4"
  /\ prefix "v" "v3.46.4" = true
  /\ In (Find "task" "v3.46.4") (events (run doubledPrefixRunner))
  /\ In (DownloadTool
           "https://github.com/go-task/task/releases/download/vv3.46.4/task_linux_amd64.tar.gz")
        (events (run doubledPrefixRunner))
  /\ outcome (resolveVersion freshRunner "v" "tok") = inr ""
  /\ outcome (resolveVersion
                (runner "linux" "x64" "latest" "tok" (inr "v") "")
                "latest" "tok") = inr "".
Proof.
  repeat split; vm_compute; tauto.
Qed.


(** C10: the leading [v] is matched with its case, the word [latest]
    without: a requested string that starts with an upper-case [V] is never
    [latest] and is resolved to itself, by no call at all, while [LATEST],
    [Latest] and every other spelling of [latest] start the registry
    branch, which creates the client first. *)
Theorem v_prefix_case_sensitive_latest_not (env : Env) (token : string) :
  (forall s, normalizeVersion ("V" ++ s) = "V" ++ s)
  /\ (forall s, (toLowerCase ("V" ++ s) =? "latest") = false)
  /\ (forall s, resolveVersion env ("V" ++ s) token = ([], inr ("V" ++ s)))
  /\ toLowerCase "LATEST" = "latest"
  /\ toLowerCase "Latest" = "latest"
  /\ (forall requested, toLowerCase requested = "latest" ->
      exists rest,
        events (resolveVersion env requested token)
        = Info "Fetching latest version..." :: GetOctokit token :: rest
        /\ (github_getOctokit env token = inr tt ->
            exists rest', rest = GetLatestRelease "go-task" "task" :: rest')).
Proof.
  split; [reflexivity |].
  split; [reflexivity |].
  split; [reflexivity |].
  split; [reflexivity |].
  split; [reflexivity |].
  intros requested Hlatest.
  assert (Hb : (toLowerCase requested =? "latest") = true)
    by now apply String.eqb_eq.
  run_cases; eexists; (split; [reflexivity |]); intros Hc;
    try discriminate; eexists; reflexivity.
Qed.

Lemma v_prefix_case_sensitive_latest_not_witness :
  toLowerCase "LATEST" = "latest"
  /\ exists rest,
       events (resolveVersion freshRunner "LATEST" "tok")
       = Info "Fetching latest version..." :: GetOctokit "tok"
           :: GetLatestRelease "go-task" "task" :: rest.
Proof.
  split; [reflexivity |].
  destruct (v_prefix_case_sensitive_latest_not freshRunner "tok")
    as (_ & _ & _ & _ & _ & Hbranch).
  destruct (Hbranch "LATEST" eq_refl) as (rest & Hev & Hquery).
  destruct (Hquery eq_refl) as (rest' & ->).
  exists rest'. exact Hev.
Defined.


(** * Further properties of the program *)

(** ** Platform resolver: which hosts are accepted *)

Lemma platformSwitch_inv (platform taskOs archive : string) :
  platformSwitch platform = inr (taskOs, archive) ->
  (platform = "linux" /\ taskOs = "linux" /\ archive = "tar.gz")
  \/ (platform = "darwin" /\ taskOs = "darwin" /\ archive = "tar.gz")
  \/ (platform = "win32" /\ taskOs = "windows" /\ archive = "zip")
  \/ (platform = "freebsd" /\ taskOs = "freebsd" /\ archive = "tar.gz").
Proof.
  unfold platformSwitch.
  repeat match goal with
         | |- context [if ?b then _ else _] => destruct b eqn:?
         end;
    intros H; inversion H; subst;
    repeat match goal with
           | E : (_ =? _) = true |- _ => apply String.eqb_eq in E
           end; auto 10.
Qed.

Lemma archSwitch_inv (a taskArch : string) :
  archSwitch a = inr taskArch ->
  In taskArch ["amd64"; "arm64"; "arm"; "386"].
Proof.
  unfold archSwitch.
  repeat match goal with
         | |- context [if ?b then _ else _] => destruct b eqn:?
         end;
    intros H; inversion H; cbn; auto 10.
Qed.

Lemma getPlatformInfo_inv (env : Env) (p : PlatformInfo) :
  getPlatformInfo env = inr p ->
  platformSwitch (os_platform env) = inr (os p, ext p)
  /\ archSwitch (os_arch env) = inr (arch p).
Proof.
  unfold getPlatformInfo.
  destruct (platformSwitch (os_platform env)) as [e | [taskOs archive]];
    [discriminate |].
  destruct (archSwitch (os_arch env)) as [e | taskArch]; [discriminate |].
  intros H. inversion H. split; reflexivity.
Qed.

Lemma getPlatformInfo_ext (env : Env) (p : PlatformInfo) :
  getPlatformInfo env = inr p ->
  (ext p =? "zip") = (os_platform env =? "win32").
Proof.
  intros H. apply getPlatformInfo_inv in H. destruct H as [H _].
  apply platformSwitch_inv in H.
  destruct H as [(-> & _ & ->) | [(-> & _ & ->) | [(-> & _ & ->) | (-> & _ & ->)]]];
    reflexivity.
Qed.

(** X1: the resolver returns a tuple exactly when the platform is one of
    linux, darwin, win32, freebsd and the architecture one of x64, arm64,
    arm, ia32; a returned tuple only holds names of the release layout,
    and its extension is zip exactly on win32. *)
Theorem getPlatformInfo_accepts_supported_hosts (env : Env) :
  ((exists p, getPlatformInfo env = inr p)
   <-> supportedPlatform (os_platform env) && supportedArch (os_arch env) = true)
  /\ forall p, getPlatformInfo env = inr p ->
       In (os p) ["linux"; "darwin"; "windows"; "freebsd"]
       /\ In (arch p) ["amd64"; "arm64"; "arm"; "386"]
       /\ In (ext p) ["tar.gz"; "zip"]
       /\ (ext p = "zip" <-> os_platform env = "win32")
       /\ (ext p = "zip" <-> os p = "windows").
Proof.
  split.
  - split.
    + intros [p Hp].
      destruct (supportedPlatform (os_platform env)) eqn:Hpl;
        [destruct (supportedArch (os_arch env)) eqn:Har; [reflexivity |] |];
        rewrite getPlatformInfo_fails in Hp by (rewrite ?Hpl, ?Har; auto);
        discriminate.
    + intros H. apply andb_true_iff in H. destruct H as [Hpl Har].
      destruct (platformSwitch_supported _ Hpl) as [[taskOs archive] E1].
      destruct (archSwitch_supported _ Har) as [taskArch E2].
      unfold getPlatformInfo. rewrite E1, E2. eexists. reflexivity.
  - intros p Hp. apply getPlatformInfo_inv in Hp. destruct Hp as [Hpl Har].
    apply archSwitch_inv in Har. apply platformSwitch_inv in Hpl.
    destruct Hpl as [(-> & -> & ->) | [(-> & -> & ->) | [(-> & -> & ->) | (-> & -> & ->)]]];
      cbn; repeat split; auto 10; discriminate.
Qed.

Lemma getPlatformInfo_accepts_supported_hosts_witness :
  (exists p, getPlatformInfo windowsRunner = inr p)
  /\ In (os {| os := "windows"; arch := "arm64"; ext := "zip" |})
        ["linux"; "darwin"; "windows"; "freebsd"]
  /\ (ext {| os := "windows"; arch := "arm64"; ext := "zip" |} = "zip"
      <-> os_platform windowsRunner = "win32").
Proof.
  split.
  - apply (proj1 (getPlatformInfo_accepts_supported_hosts windowsRunner)).
    reflexivity.
  - destruct (proj2 (getPlatformInfo_accepts_supported_hosts windowsRunner)
                {| os := "windows"; arch := "arm64"; ext := "zip" |} eq_refl)
      as (Hos & _ & _ & Hzip & _).
    split; [exact Hos | exact Hzip].
Defined.

(** ** Artifact locator: one URL per version *)

Lemma append_length (a b : string) :
  String.length (a ++ b) = String.length a + String.length b.
Proof. induction a as [| c a IH]; cbn; [reflexivity | now rewrite IH]. Qed.

Lemma append_cancel_r (a b suffix : string) :
  a ++ suffix = b ++ suffix -> a = b.
Proof.
  revert b. induction a as [| c a IH]; intros [| d b] H.
  - reflexivity.
  - exfalso. apply (f_equal String.length) in H.
    cbn in H. rewrite append_length in H.
    clear -H. induction (String.length suffix) as [| n IHn].
    + rewrite PeanoNat.Nat.add_0_r in H. discriminate.
    + apply IHn. rewrite <- plus_n_Sm in H. now injection H.
  - exfalso. apply (f_equal String.length) in H.
    cbn in H. rewrite append_length in H.
    clear -H. induction (String.length suffix) as [| n IHn].
    + rewrite PeanoNat.Nat.add_0_r in H. discriminate.
    + apply IHn. rewrite <- plus_n_Sm in H. now injection H.
  - cbn in H. injection H as -> H. f_equal. now apply IH.
Qed.

(** X2: for one platform tuple, two versions with the same download URL
    are the same version: distinct versions are never fetched from one
    URL. *)
Theorem getDownloadUrl_version_injective (p : PlatformInfo) (v1 v2 : string) :
  getDownloadUrl v1 p = getDownloadUrl v2 p -> v1 = v2.
Proof.
  unfold getDownloadUrl, REPO_OWNER, REPO_NAME. cbn [append].
  intros H. injection H as H.
  now apply append_cancel_r in H.
Qed.

Lemma getDownloadUrl_version_injective_witness :
  getDownloadUrl "3.46.4" {| os := "linux"; arch := "amd64"; ext := "tar.gz" |}
  = getDownloadUrl (normalizeVersion "v3.46.4")
      {| os := "linux"; arch := "amd64"; ext := "tar.gz" |}
  /\ "3.46.4" = normalizeVersion "v3.46.4".
Proof.
  split; [reflexivity |].
  exact (getDownloadUrl_version_injective
           {| os := "linux"; arch := "amd64"; ext := "tar.gz" |}
           "3.46.4" (normalizeVersion "v3.46.4") eq_refl).
Defined.

(** ** Download, extraction and cache write *)

(** X3: when the download, the extraction and the cache write all return,
    [downloadAndExtract] logs the URL, downloads it, extracts the file the
    download returned (with [extractZip] when the extension is zip, with
    [extractTar] otherwise), stores the directory the extraction returned
    under (task, version), and returns the path the cache answers, not the
    extracted directory. *)
Theorem downloadAndExtract_chains_steps (env : Env) (url version : string)
    (platformInfo : PlatformInfo) (downloadPath extractedPath cachedPath : string) :
  tc_downloadTool env url = inr downloadPath ->
  (if ext platformInfo =? "zip"
   then tc_extractZip env downloadPath
   else tc_extractTar env downloadPath) = inr extractedPath ->
  tc_cacheDir env extractedPath "task" version = inr cachedPath ->
  downloadAndExtract env url version platformInfo
  = ([Info ("Downloading Taskfile from " ++ url);
      DownloadTool url;
      (if ext platformInfo =? "zip"
       then ExtractZip downloadPath else ExtractTar downloadPath);
      CacheDir extractedPath "task" version],
     inr cachedPath).
Proof.
  intros Hdl Hex Hcache.
  destruct (ext platformInfo =? "zip") eqn:Hzip; run_cases; reflexivity.
Qed.

Lemma downloadAndExtract_chains_steps_witness :
  downloadAndExtract windowsRunner
    (getDownloadUrl "3.46.4" {| os := "windows"; arch := "arm64"; ext := "zip" |})
    "3.46.4" {| os := "windows"; arch := "arm64"; ext := "zip" |}
  = ([Info "Downloading Taskfile from https://github.com/go-task/task/releases/download/v3.46.4/task_windows_arm64.zip";
      DownloadTool "https://github.com/go-task/task/releases/download/v3.46.4/task_windows_arm64.zip";
      ExtractZip "/tmp/archive";
      CacheDir "/tmp/unzipped" "task" "3.46.4"],
     inr "/opt/hostedtoolcache/task/3.46.4/arm64").
Proof.
  exact (downloadAndExtract_chains_steps windowsRunner
           (getDownloadUrl "3.46.4"
              {| os := "windows"; arch := "arm64"; ext := "zip" |})
           "3.46.4" {| os := "windows"; arch := "arm64"; ext := "zip" |}
           "/tmp/archive" "/tmp/unzipped"
           "/opt/hostedtoolcache/task/3.46.4/arm64"
           eq_refl eq_refl eq_refl).
Defined.

(** X4: [downloadAndExtract] throws exactly the value of its first
    rejected step, unchanged, and calls nothing after it: a rejected
    download is followed by no extraction and no cache write, a rejected
    extraction by no cache write. *)
Theorem downloadAndExtract_stops_at_first_failure (env : Env)
    (url version : string) (platformInfo : PlatformInfo) (error : thrown) :
  outcome (downloadAndExtract env url version platformInfo) = inl error ->
  let tr := events (downloadAndExtract env url version platformInfo) in
  (tc_downloadTool env url = inl error
   /\ filter isExtract tr = [] /\ filter isCacheWrite tr = [])
  \/ (exists downloadPath,
        tc_downloadTool env url = inr downloadPath
        /\ (if ext platformInfo =? "zip"
            then tc_extractZip env downloadPath
            else tc_extractTar env downloadPath) = inl error
        /\ filter isCacheWrite tr = [])
  \/ (exists downloadPath extractedPath,
        tc_downloadTool env url = inr downloadPath
        /\ (if ext platformInfo =? "zip"
            then tc_extractZip env downloadPath
            else tc_extractTar env downloadPath) = inr extractedPath
        /\ tc_cacheDir env extractedPath "task" version = inl error).
Proof.
  run_cases; intros H; try discriminate; injection H as ->;
    first
      [ solve [left; repeat split; reflexivity]
      | solve [right; left; eexists; repeat split; reflexivity || eassumption]
      | solve [right; right; do 2 eexists;
               repeat split; reflexivity || eassumption] ].
Qed.

Lemma downloadAndExtract_stops_at_first_failure_witness :
  tc_downloadTool
    (offlineRunner "linux" "x64" "3.46.4" "tok" (inr "v3.50.0")
       (newError "Unexpected HTTP response: 404"))
    "u" = inl (newError "Unexpected HTTP response: 404")
  /\ filter isExtract
       (events (downloadAndExtract
                  (offlineRunner "linux" "x64" "3.46.4" "tok" (inr "v3.50.0")
                     (newError "Unexpected HTTP response: 404"))
                  "u" "3.46.4"
                  {| os := "linux"; arch := "amd64"; ext := "tar.gz" |})) = [].
Proof.
  destruct (downloadAndExtract_stops_at_first_failure
              (offlineRunner "linux" "x64" "3.46.4" "tok" (inr "v3.50.0")
                 (newError "Unexpected HTTP response: 404"))
              "u" "3.46.4" {| os := "linux"; arch := "amd64"; ext := "tar.gz" |}
              (newError "Unexpected HTTP response: 404") eq_refl)
    as [(Hdl & Hex & _) | [(dl & Hdl & _) | (dl & ex & Hdl & _)]].
  - split; [exact Hdl | exact Hex].
  - discriminate Hdl.
  - discriminate Hdl.
Defined.

(** ** The run as a sequence *)

(** X5: a run extracts with [extractZip] only on a win32 host and with
    [extractTar] only on a linux, darwin or freebsd host. *)
Theorem extractor_follows_platform (env : Env) (file : string) :
  (In (ExtractZip file) (events (run env)) -> os_platform env = "win32")
  /\ (In (ExtractTar file) (events (run env)) ->
      In (os_platform env) ["linux"; "darwin"; "freebsd"]).
Proof.
  assert (Hzip : forall p, getPlatformInfo env = inr p ->
            (ext p =? "zip") = true -> os_platform env = "win32").
  { intros p Hp Hz. rewrite (getPlatformInfo_ext env p Hp) in Hz.
    now apply String.eqb_eq. }
  assert (Htar : forall p, getPlatformInfo env = inr p ->
            (ext p =? "zip") = false ->
            In (os_platform env) ["linux"; "darwin"; "freebsd"]).
  { intros p Hp Hz. apply getPlatformInfo_inv in Hp. destruct Hp as [Hp _].
    apply platformSwitch_inv in Hp.
    destruct Hp as [(-> & _ & _) | [(-> & _ & _) | [(_ & _ & Hx) | (-> & _ & _)]]];
      cbn; auto.
    rewrite Hx in Hz. discriminate. }
  split; run_cases; intros Hin; cbn [In] in Hin;
    repeat match goal with
           | H : _ \/ _ |- _ => destruct H as [H | H]; try discriminate H
           | H : False |- _ => destruct H
           end; eauto.
Qed.

Lemma extractor_follows_platform_witness :
  In (ExtractZip "/tmp/archive") (events (run windowsRunner))
  /\ os_platform windowsRunner = "win32".
Proof.
  assert (H : In (ExtractZip "/tmp/archive") (events (run windowsRunner)))
    by (vm_compute; tauto).
  split; [exact H |].
  exact (proj1 (extractor_follows_platform windowsRunner "/tmp/archive") H).
Defined.

(** X6: whatever the libraries answer, a run reads its two inputs once
    each and makes at most one client, one registry query, one cache
    lookup, one download, one extraction, one cache write, one path
    update, one verification and one failure status. *)
Theorem run_calls_each_step_at_most_once (env : Env) :
  let tr := events (run env) in
  filter (fun ev => negb (isInfo ev)) (firstn 2 tr)
  = [GetInput "version"; GetInput "github-token"]
  /\ length (filter isClientCreation tr) <= 1
  /\ length (filter isRegistryQuery tr) <= 1
  /\ length (filter isCacheLookup tr) <= 1
  /\ length (filter isDownload tr) <= 1
  /\ length (filter isExtract tr) <= 1
  /\ length (filter isCacheWrite tr) <= 1
  /\ length (filter isAddPath tr) <= 1
  /\ length (filter isExec tr) <= 1
  /\ length (filter isSetFailed tr) <= 1.
Proof.
  cbv zeta. cases_of (run env); cbn; repeat split; auto.
Qed.

(** X7: the calls of a run other than log lines always come in the order
    of the program: input reads, client, registry query, cache lookup,
    download, extraction, cache write, path update, verification, the
    [version] output, the [cache-hit] output, failure status; no call is
    made after a failure status or after a later one of these. *)
Theorem run_calls_follow_program_order (env : Env) :
  ascending (phases (events (run env))) = true.
Proof. cases_of (run env); reflexivity. Qed.

(** ** Requested version: explicit, empty, prefixed *)

(** X8: when the requested version is not [latest] in any letter case, the
    run creates no client and makes no registry query, so the token is
    read and never used. *)
Theorem explicit_version_never_queries_registry (env : Env) :
  toLowerCase (versionInput env) <> "latest" ->
  filter isClientCreation (events (run env)) = []
  /\ filter isRegistryQuery (events (run env)) = []
  /\ resolveVersion env (versionInput env) (core_getInput env "github-token")
     = ([], inr (normalizeVersion (versionInput env))).
Proof.
  intros H. apply String.eqb_neq in H.
  repeat split; run_cases; reflexivity.
Qed.

Lemma explicit_version_never_queries_registry_witness :
  toLowerCase (versionInput warmRunner) <> "latest"
  /\ filter isClientCreation (events (run warmRunner)) = []
  /\ filter isRegistryQuery (events (run warmRunner)) = [].
Proof.
  assert (H : toLowerCase (versionInput warmRunner) <> "latest")
    by (vm_compute; discriminate).
  destruct (explicit_version_never_queries_registry warmRunner H)
    as (Hclient & Hquery & _).
  split; [exact H | split; [exact Hclient | exact Hquery]].
Defined.

(** X9: an empty [version] input is read as [latest]: the requested
    version is never the empty string, and with an empty input on a
    resolved platform the run goes to the registry, creating the client
    with the token right after the first log lines. *)
Theorem empty_version_input_means_latest (env : Env) :
  versionInput env <> ""
  /\ (core_getInput env "version" = "" ->
      versionInput env = "latest"
      /\ forall platformInfo, getPlatformInfo env = inr platformInfo ->
         exists rest,
           events (run env)
           = GetInput "version" :: GetInput "github-token"
               :: Info ("Detected platform: " ++ os platformInfo ++ "/"
                          ++ arch platformInfo)
               :: Info "Fetching latest version..."
               :: GetOctokit (core_getInput env "github-token") :: rest).
Proof.
  split.
  - unfold versionInput, truthy.
    destruct (core_getInput env "version" =? "") eqn:E; cbn; [discriminate |].
    now apply String.eqb_neq.
  - intros Hempty.
    assert (Hv : versionInput env = "latest")
      by (unfold versionInput; rewrite Hempty; reflexivity).
    split; [exact Hv |].
    intros platformInfo Hplat.
    assert (Hb : (toLowerCase (versionInput env) =? "latest") = true)
      by (rewrite Hv; reflexivity).
    run_cases; eexists; reflexivity.
Qed.

Lemma empty_version_input_means_latest_witness :
  core_getInput (withVersion freshRunner "") "version" = ""
  /\ versionInput (withVersion freshRunner "") = "latest"
  /\ exists rest,
       events (run (withVersion freshRunner ""))
       = GetInput "version" :: GetInput "github-token"
           :: Info "Detected platform: linux/amd64"
           :: Info "Fetching latest version..."
           :: GetOctokit "tok" :: rest.
Proof.
  split; [reflexivity |].
  destruct (proj2 (empty_version_input_means_latest (withVersion freshRunner ""))
              eq_refl) as (Hv & Hrun).
  split; [exact Hv |].
  exact (Hrun {| os := "linux"; arch := "amd64"; ext := "tar.gz" |} eq_refl).
Defined.

(** X10: a requested version that starts with a lower-case [v] is never
    taken for [latest]: it is resolved to what follows the [v] without any
    call, so [vlatest] is resolved to the explicit version [latest], and on
    a resolved platform the run looks up (task, remainder) and makes no
    registry query. *)
Theorem lower_v_prefix_is_always_explicit (env : Env) (s : string) :
  (forall token, resolveVersion env ("v" ++ s) token = ([], inr s))
  /\ (versionInput env = "v" ++ s ->
      forall platformInfo, getPlatformInfo env = inr platformInfo ->
      filter isRegistryQuery (events (run env)) = []
      /\ filter isCacheLookup (events (run env)) = [Find "task" s]).
Proof.
  split; [reflexivity |].
  intros Hv platformInfo Hplat.
  assert (Hb : (toLowerCase (versionInput env) =? "latest") = false)
    by (rewrite Hv; reflexivity).
  assert (Hn : normalizeVersion (versionInput env) = s)
    by (rewrite Hv; reflexivity).
  split; run_cases; reflexivity.
Qed.

Lemma lower_v_prefix_is_always_explicit_witness :
  versionInput (withVersion freshRunner "vlatest") = "vlatest"
  /\ filter isRegistryQuery (events (run (withVersion freshRunner "vlatest"))) = []
  /\ filter isCacheLookup (events (run (withVersion freshRunner "vlatest")))
     = [Find "task" "latest"].
Proof.
  split; [reflexivity |].
  exact (proj2 (lower_v_prefix_is_always_explicit
                  (withVersion freshRunner "vlatest") "latest")
           eq_refl {| os := "linux"; arch := "amd64"; ext := "tar.gz" |} eq_refl).
Defined.

Lemma truthy_nonempty (s : string) : s <> "" -> truthy s = true.
Proof.
  intros H. unfold truthy. apply String.eqb_neq in H. now rewrite H.
Qed.

(** X11: a run sees an explicit request only through its normalized form:
    two non-empty requests, neither of them [latest], that normalize to
    the same version give the same run, call for call and log line for log
    line; so [v3.46.4] and [3.46.4] cannot be told apart. *)
Theorem run_depends_on_normalized_version (env : Env) (a b : string) :
  a <> "" -> b <> "" ->
  toLowerCase a <> "latest" -> toLowerCase b <> "latest" ->
  normalizeVersion a = normalizeVersion b ->
  run (withVersion env a) = run (withVersion env b).
Proof.
  intros Ha Hb Hla Hlb Hn.
  apply truthy_nonempty in Ha, Hb. apply String.eqb_neq in Hla, Hlb.
  unfold run, runBody.
  change (getPlatformInfo (withVersion env a)) with (getPlatformInfo env).
  change (getPlatformInfo (withVersion env b)) with (getPlatformInfo env).
  change (core_getInput (withVersion env a) "version") with a.
  change (core_getInput (withVersion env b) "version") with b.
  change (core_getInput (withVersion env a) "github-token")
    with (core_getInput env "github-token").
  change (core_getInput (withVersion env b) "github-token")
    with (core_getInput env "github-token").
  change (install (withVersion env a)) with (install env).
  change (install (withVersion env b)) with (install env).
  change (verifyInstallation (withVersion env a)) with (verifyInstallation env).
  change (verifyInstallation (withVersion env b)) with (verifyInstallation env).
  change (core_addPath (withVersion env a)) with (core_addPath env).
  change (core_addPath (withVersion env b)) with (core_addPath env).
  unfold resolveVersion.
  cbv beta iota zeta delta [bind call].
  rewrite Ha, Hb, Hla, Hlb, Hn. reflexivity.
Qed.

Lemma run_depends_on_normalized_version_witness :
  normalizeVersion "v3.46.4" = normalizeVersion "3.46.4"
  /\ run (withVersion freshRunner "v3.46.4")
     = run (withVersion freshRunner "3.46.4").
Proof.
  split; [reflexivity |].
  apply run_depends_on_normalized_version;
    first [discriminate | reflexivity | (vm_compute; discriminate)].
Defined.

(** ** Verification and outputs *)

(** X13: the directory is put on the path before the binary is verified
    and is not taken back: in a run that reaches the verification and
    whose verification is rejected, the path update has been made, no
    output is set and the failure status carries the rejection. *)
Theorem failed_verification_keeps_path (env : Env) (error : thrown) :
  exec_exec env "task" ["--version"] = inl error ->
  In (Exec "task" ["--version"]) (events (run env)) ->
  (exists dir, In (AddPath dir) (events (run env))
               /\ core_addPath env dir = inr tt)
  /\ outputs (events (run env)) = []
  /\ failures (events (run env)) = [failureMessage error].
Proof.
  intros Hexec. cases_of (run env); intros Hin; cbn [In] in Hin;
    repeat match goal with
           | H : _ \/ _ |- _ => destruct H as [H | H]; try discriminate H
           | H : False |- _ => destruct H
           end;
    (split; [| split; reflexivity]);
    eexists; (split; [cbn; auto 20 |]);
    match goal with
    | H : core_addPath _ _ = inr ?u |- _ => destruct u; exact H
    end.
Qed.

Lemma failed_verification_keeps_path_witness :
  In (AddPath "/opt/hostedtoolcache/task/3.46.4/x64")
     (events (run brokenBinaryRunner))
  /\ outputs (events (run brokenBinaryRunner)) = []
  /\ failures (events (run brokenBinaryRunner))
     = ["Unable to locate executable file: task"].
Proof.
  assert (Hin : In (Exec "task" ["--version"]) (events (run brokenBinaryRunner)))
    by (vm_compute; tauto).
  destruct (failed_verification_keeps_path brokenBinaryRunner
              (newError "Unable to locate executable file: task") eq_refl Hin)
    as (_ & Hout & Hfail).
  split; [vm_compute; tauto | split; [exact Hout | exact Hfail]].
Defined.

(** X14: a run that sets no failure status has looked up exactly the
    version it reports, has put exactly one directory on the path and has
    verified the binary; [cache-hit] is [true] exactly when the run made no
    download, the directory then being the one the cache lookup answered,
    and otherwise the directory is the one the cache write answered. *)
Theorem successful_run_reports_what_it_installed (env : Env) :
  failures (events (run env)) = [] ->
  exists version dir hit,
    outputs (events (run env))
    = [("version", version); ("cache-hit", boolToString hit)]
    /\ filter isCacheLookup (events (run env)) = [Find "task" version]
    /\ filter isAddPath (events (run env)) = [AddPath dir]
    /\ filter isExec (events (run env)) = [Exec "task" ["--version"]]
    /\ (hit = true <-> filter isDownload (events (run env)) = [])
    /\ (if hit
        then tc_find env "task" version = inr dir
        else exists extracted,
            filter isCacheWrite (events (run env))
            = [CacheDir extracted "task" version]
            /\ tc_cacheDir env extracted "task" version = inr dir).
Proof.
  cases_of (run env); cbn [failures]; intros Hfail; try discriminate Hfail.
  all: do 3 eexists.
  all: split; [reflexivity |].
  all: split; [reflexivity |].
  all: split; [reflexivity |].
  all: split; [reflexivity |].
  all: split;
    [ split; intros H; first [reflexivity | discriminate H]
    | first [assumption | eexists; split; [reflexivity | assumption]] ].
Qed.

Lemma successful_run_reports_what_it_installed_witness :
  failures (events (run freshRunner)) = []
  /\ exists version dir hit,
       outputs (events (run freshRunner))
       = [("version", version); ("cache-hit", boolToString hit)]
       /\ filter isCacheLookup (events (run freshRunner)) = [Find "task" version]
       /\ filter isAddPath (events (run freshRunner)) = [AddPath dir].
Proof.
  split; [reflexivity |].
  destruct (successful_run_reports_what_it_installed freshRunner eq_refl)
    as (version & dir & hit & Hout & Hfind & Hpath & _).
  exists version, dir, hit. split; [exact Hout | split; [exact Hfind | exact Hpath]].
Defined.

(** ** What a run touches *)

(** X15: whatever the libraries answer, a run reads no input other than
    [version] and [github-token], creates the client with the
    [github-token] input only, queries no repository other than
    go-task/task, looks up and stores no tool other than [task], executes
    no command other than [task --version] and sets no output other than
    [version] and [cache-hit]. *)
Theorem run_touches_only_its_own_names (env : Env) (ev : Event) :
  In ev (events (run env)) ->
  match ev with
  | GetInput name => name = "version" \/ name = "github-token"
  | GetOctokit token => token = core_getInput env "github-token"
  | GetLatestRelease owner repo => owner = "go-task" /\ repo = "task"
  | Find tool _ => tool = "task"
  | CacheDir _ tool _ => tool = "task"
  | Exec cmd args => cmd = "task" /\ args = ["--version"]
  | SetOutput name _ => name = "version" \/ name = "cache-hit"
  | _ => True
  end.
Proof.
  cases_of (run env); intros Hin; cbn [In] in Hin;
    repeat match goal with
           | H : _ \/ _ |- _ => destruct H as [<- | H]
           | H : False |- _ => destruct H
           end; auto.
Qed.

Lemma run_touches_only_its_own_names_witness :
  In (GetOctokit "tok") (events (run freshRunner))
  /\ "tok" = core_getInput freshRunner "github-token".
Proof.
  assert (H : In (GetOctokit "tok") (events (run freshRunner)))
    by (vm_compute; tauto).
  split; [exact H |].
  exact (run_touches_only_its_own_names freshRunner (GetOctokit "tok") H).
Defined.

(** ** Platform and asset *)

Lemma append_assoc (a b c : string) : (a ++ b) ++ c = a ++ (b ++ c).
Proof. induction a as [| x a IH]; cbn; [reflexivity | now rewrite IH]. Qed.

(** X16: on a host the resolver accepts, the URL of every version names
    the [.zip] asset on win32 and the [.tar.gz] asset on linux, darwin and
    freebsd, under [releases/download/v] followed by the version. *)
Theorem getDownloadUrl_asset_matches_host (env : Env)
    (platformInfo : PlatformInfo) (version : string) :
  getPlatformInfo env = inr platformInfo ->
  exists name,
    getDownloadUrl version platformInfo
    = "https://github.com/go-task/task/releases/download/v" ++ version
        ++ "/task_" ++ name
        ++ (if os_platform env =? "win32" then ".zip" else ".tar.gz").
Proof.
  intros Hp.
  exists (os platformInfo ++ "_" ++ arch platformInfo).
  rewrite <- (getPlatformInfo_ext env platformInfo Hp).
  apply getPlatformInfo_inv in Hp. destruct Hp as [Hp _].
  apply platformSwitch_inv in Hp.
  transitivity
    ("https://github.com/go-task/task/releases/download/v" ++ version
       ++ "/task_" ++ os platformInfo ++ "_" ++ arch platformInfo
       ++ "." ++ ext platformInfo);
    [reflexivity |].
  do 3 f_equal.
  rewrite !append_assoc.
  do 3 f_equal.
  destruct Hp as [(_ & _ & ->) | [(_ & _ & ->) | [(_ & _ & ->) | (_ & _ & ->)]]];
    reflexivity.
Qed.

Lemma getDownloadUrl_asset_matches_host_witness :
  exists name,
    getDownloadUrl "3.46.4" {| os := "windows"; arch := "arm64"; ext := "zip" |}
    = "https://github.com/go-task/task/releases/download/v" ++ "3.46.4"
        ++ "/task_" ++ name ++ ".zip".
Proof.
  exact (getDownloadUrl_asset_matches_host windowsRunner
           {| os := "windows"; arch := "arm64"; ext := "zip" |} "3.46.4" eq_refl).
Defined.
